(** * homework_bot: a shallow embedding of [homework.py]

    The bot polls the Practicum review API and forwards status changes of a
    homework to a Telegram chat.  The embedding follows [homework.py]
    function by function.  Python values are the values [response.json()]
    can produce; a computation is a pair of the events it performed (log
    records and calls to the two network libraries) and either its value or
    the exception it raised.  The outcomes of the network calls are inputs of
    the model. *)

From Stdlib Require Import ZArith List String Ascii Bool Lia.
From Stdlib Require Import DecimalString SpecFloat.
Import ListNotations.
Local Open Scope string_scope.
Local Open Scope Z_scope.

(** ** Python values *)

Local Set Warnings "-register-all".

(** The values a decoded JSON document is made of.  A [dict] keeps its items
    in insertion order; its keys are strings, and the binding found first is
    the binding of a key. *)
Inductive pyval : Type :=
| PNone
| PBool (b : bool)
| PInt (n : Z)
| PFloat (f : spec_float)
| PStr (s : string)
| PList (items : list pyval)
| PDict (items : list (string * pyval)).

(** The binding of [key] in the items of a dict: [None] when [key not in d]. *)
Fixpoint dict_get (key : string) (items : list (string * pyval)) : option pyval :=
  match items with
  | [] => None
  | (k, v) :: rest => if String.eqb k key then Some v else dict_get key rest
  end.

(** [isinstance(v, dict)] and [isinstance(v, list)]. *)
Definition is_dict (v : pyval) : bool :=
  match v with PDict _ => true | _ => false end.

Definition is_list (v : pyval) : bool :=
  match v with PList _ => true | _ => false end.

(** [type(v).__name__], as the interpreter prints it in its own errors. *)
Definition type_name (v : pyval) : string :=
  match v with
  | PNone => "NoneType"
  | PBool _ => "bool"
  | PInt _ => "int"
  | PFloat _ => "float"
  | PStr _ => "str"
  | PList _ => "list"
  | PDict _ => "dict"
  end.

(** [bool(v)]: the truth value used by [if] and [and]. *)
Definition truthy (v : pyval) : bool :=
  match v with
  | PNone => false
  | PBool b => b
  | PInt n => negb (n =? 0)
  | PFloat (S754_zero _) => false
  | PFloat _ => true
  | PStr s => negb (String.eqb s "")
  | PList items => match items with [] => false | _ => true end
  | PDict items => match items with [] => false | _ => true end
  end.

(** Numbers compare by value across [bool], [int] and [float]. *)
Definition float_eq_int (f : spec_float) (n : Z) : bool :=
  match f with
  | S754_zero _ => n =? 0
  | S754_finite s m e =>
      let sm := if s then Z.neg m else Z.pos m in
      if 0 <=? e then n =? sm * 2 ^ e else n * 2 ^ (- e) =? sm
  | _ => false
  end.

Definition int_of_bool (b : bool) : Z := if b then 1 else 0.

(** [a == b]. *)
Fixpoint py_eq (a b : pyval) {struct a} : bool :=
  match a, b with
  | PNone, PNone => true
  | PBool x, PBool y => Bool.eqb x y
  | PBool x, PInt y => int_of_bool x =? y
  | PBool x, PFloat y => float_eq_int y (int_of_bool x)
  | PInt x, PBool y => x =? int_of_bool y
  | PInt x, PInt y => x =? y
  | PInt x, PFloat y => float_eq_int y x
  | PFloat x, PBool y => float_eq_int x (int_of_bool y)
  | PFloat x, PInt y => float_eq_int x y
  | PFloat x, PFloat y => SFeqb x y
  | PStr x, PStr y => String.eqb x y
  | PList xs, PList ys =>
      (fix all2 (xs : list pyval) (ys : list pyval) {struct xs} : bool :=
         match xs, ys with
         | [], [] => true
         | x :: xs', y :: ys' => py_eq x y && all2 xs' ys'
         | _, _ => false
         end) xs ys
  | PDict xs, PDict ys =>
      (List.length xs =? List.length ys)%nat &&
      (fix all_in (xs : list (string * pyval)) {struct xs} : bool :=
         match xs with
         | [] => true
         | (k, x) :: xs' =>
             match dict_get k ys with
             | Some y => py_eq x y && all_in xs'
             | None => false
             end
         end) xs
  | _, _ => false
  end.

(** ** Exceptions *)

(** The exception classes the program names, raises or can receive from the
    interpreter, from [requests] and from [telegram]. *)
Inductive exc_class : Type :=
| BaseException | KeyboardInterrupt | SystemExit
| Exception
| TypeError | ValueError | AttributeError
| LookupError | KeyError
| OSError
| RequestException | HTTPError | ConnectionError | Timeout | ConnectTimeout
| ReadTimeout | JSONDecodeError
| TelegramError | NetworkError | TimedOut | BadRequest | Unauthorized
| UnexpectedStatusError.

(** The base classes, as the interpreter and the two libraries declare them
    (a class the model does not list is skipped over to its own bases). *)
Definition bases (c : exc_class) : list exc_class :=
  match c with
  | BaseException => []
  | KeyboardInterrupt | SystemExit | Exception => [BaseException]
  | TypeError | ValueError | AttributeError | LookupError | OSError => [Exception]
  | KeyError => [LookupError]
  | RequestException => [OSError]
  | HTTPError | ConnectionError | Timeout => [RequestException]
  | ConnectTimeout => [ConnectionError; Timeout]
  | ReadTimeout => [Timeout]
  | JSONDecodeError => [RequestException; ValueError]
  | TelegramError => [Exception]
  | NetworkError | Unauthorized => [TelegramError]
  | TimedOut | BadRequest => [NetworkError]
  | UnexpectedStatusError => [Exception]
  end.

Definition exc_class_eqb (c d : exc_class) : bool :=
  match c, d with
  | BaseException, BaseException | KeyboardInterrupt, KeyboardInterrupt
  | SystemExit, SystemExit | Exception, Exception | TypeError, TypeError
  | ValueError, ValueError | AttributeError, AttributeError
  | LookupError, LookupError | KeyError, KeyError | OSError, OSError
  | RequestException, RequestException | HTTPError, HTTPError
  | ConnectionError, ConnectionError | Timeout, Timeout
  | ConnectTimeout, ConnectTimeout | ReadTimeout, ReadTimeout
  | JSONDecodeError, JSONDecodeError | TelegramError, TelegramError
  | NetworkError, NetworkError | TimedOut, TimedOut | BadRequest, BadRequest
  | Unauthorized, Unauthorized
  | UnexpectedStatusError, UnexpectedStatusError => true
  | _, _ => false
  end.

(** [issubclass(c, d)]: [d] is [c] or is reached from [c] through [bases].
    The hierarchy is five classes deep at most. *)
Fixpoint issubclass_upto (depth : nat) (c d : exc_class) : bool :=
  exc_class_eqb c d ||
  match depth with
  | O => false
  | S depth' => existsb (fun b => issubclass_upto depth' b d) (bases c)
  end.

Definition issubclass : exc_class -> exc_class -> bool := issubclass_upto 6.

(** An exception object: its class and the argument it was built with. *)
Record exn : Type := MkExn { exc_cls : exc_class; exc_arg : pyval }.

(** [except cls:] catches [e]. *)
Definition caught_by (cls : exc_class) (e : exn) : bool :=
  issubclass (exc_cls e) cls.

(** ** Computations *)

Inductive level : Type := INFO | ERROR | CRITICAL.

(** What a run does to the outside: a log record, a call of
    [requests.get], a call of [bot.send_message] (with whether the call
    returned), a call of [time.sleep]. *)
Inductive event : Type :=
| Log (lvl : level) (msg : string)
| HttpGet (url : string) (authorization : string) (from_date : Z)
| TelegramSend (chat_id : option string) (text : string) (delivered : bool)
| Sleep (seconds : Z).

Inductive result (A : Type) : Type :=
| Returns (a : A)
| Raises (e : exn).
Arguments Returns {A} a.
Arguments Raises {A} e.

(** A computation: the events it performed, in order, and how it ended. *)
Definition M (A : Type) : Type := (list event * result A)%type.

Definition ret {A} (a : A) : M A := ([], Returns a).
Definition raise {A} (e : exn) : M A := ([], Raises e).
Definition emit (ev : event) : M unit := ([ev], Returns tt).

Definition bind {A B} (c : M A) (k : A -> M B) : M B :=
  match c with
  | (tr, Returns a) => let (tr', r) := k a in ((tr ++ tr')%list, r)
  | (tr, Raises e) => (tr, Raises e)
  end.

Notation "x <- c ;; k" := (bind c (fun x => k))
  (at level 61, c at next level, right associativity).
Notation "c ;; k" := (bind c (fun _ => k))
  (at level 61, right associativity).

Definition logger_info (msg : string) : M unit := emit (Log INFO msg).
Definition logger_error (msg : string) : M unit := emit (Log ERROR msg).
Definition logger_critical (msg : string) : M unit := emit (Log CRITICAL msg).

(** ** Strings *)

Definition dquote : string := String (ascii_of_nat 34) "".

(** [str(n)] of an [int]. *)
Definition str_int (n : Z) : string := NilZero.string_of_int (Z.to_int n).

(** [needle in hay] on strings. *)
Fixpoint contains (needle hay : string) : bool :=
  String.prefix needle hay ||
  match hay with
  | EmptyString => false
  | String _ rest => contains needle rest
  end.

(** ** The network, as the program sees it *)

(** What [requests.get] hands back: [status_code] and the outcome of
    [.json()]. *)
Record http_response : Type :=
  MkResponse { status_code : Z; json : result pyval }.

(** [bot.send_message(chat_id, text)] returns or raises. *)
Definition bot_t : Type := option string -> string -> result unit.

(** ** The program *)

Section Homework.

(** [os.getenv], and the interpreter's [repr] of a value and [str] of an
    exception object: the program formats with them and never inspects the
    text they give. *)
Variable getenv : string -> option string.
Variable py_repr : pyval -> string.
Variable exc_str : exn -> string.

Definition PRACTICUM_TOKEN : option string := getenv "PRACTICUM_TOKEN".
Definition TELEGRAM_TOKEN : option string := getenv "TELEGRAM_TOKEN".
Definition TELEGRAM_CHAT_ID : option string := getenv "TELEGRAM_CHAT_ID".

Definition RETRY_TIME : Z := 600.
Definition ENDPOINT : string :=
  "https://practicum.yandex.ru/api/user_api/homework_statuses/".

(** [str(v)], which an f-string applies to a field without a format. *)
Definition py_str (v : pyval) : string :=
  match v with
  | PNone => "None"
  | PBool true => "True"
  | PBool false => "False"
  | PInt n => str_int n
  | PStr s => s
  | _ => py_repr v
  end.

Definition of_env (o : option string) : pyval :=
  match o with Some s => PStr s | None => PNone end.

(** The [Authorization] header, [f'OAuth {PRACTICUM_TOKEN}']. *)
Definition HEADERS : string :=
  "OAuth " ++ match PRACTICUM_TOKEN with Some token => token | None => "None" end.

Definition HOMEWORK_STATUSES : list (string * string) :=
  [ ("approved", "Работа проверена: ревьюеру всё понравилось. Ура!");
    ("reviewing", "Работа взята на проверку ревьюером.");
    ("rejected", "Работа проверена: у ревьюера есть замечания.") ].

Fixpoint assoc (key : string) (table : list (string * string)) : option string :=
  match table with
  | [] => None
  | (k, v) :: rest => if String.eqb k key then Some v else assoc key rest
  end.

(** [send_message(bot, message)] *)
Definition send_message (bot : bot_t) (message : string) : M unit :=
  match bot TELEGRAM_CHAT_ID message with
  | Returns _ =>
      emit (TelegramSend TELEGRAM_CHAT_ID message true) ;;
      logger_info "Сообщение отправлено"
  | Raises e =>
      emit (TelegramSend TELEGRAM_CHAT_ID message false) ;;
      if caught_by TelegramError e
      then logger_error "Сообщение не отправлено"
      else raise e
  end.

(** [get_api_answer(current_timestamp)]; [net] is what the call of
    [requests.get] does. *)
Definition get_api_answer (current_timestamp : Z) (net : result http_response)
  : M pyval :=
  emit (HttpGet ENDPOINT HEADERS current_timestamp) ;;
  match net with
  | Raises error =>
      if caught_by ConnectTimeout error then
        logger_error ("Превышено время ожидания ответа сервера " ++ exc_str error) ;;
        raise error
      else if caught_by RequestException error then
        logger_error ("Произошла ошибка соединения " ++ exc_str error) ;;
        raise error
      else raise error
  | Returns response =>
      if negb (status_code response =? 200) then
        logger_error ("Сбой в программе: Эндпоинт " ++ ENDPOINT ++ " недоступен."
                      ++ "Недоступен. Код ответа API: "
                      ++ str_int (status_code response)) ;;
        raise (MkExn HTTPError
                 (PStr ("Неверный код ответа сервера. "
                        ++ str_int (status_code response))))
      else
        match json response with
        | Returns body => ret body
        | Raises error =>
            if caught_by ValueError error then
              logger_error (exc_str error) ;;
              raise (MkExn ValueError (PStr "Ответ не содержит валидный JSON"))
            else raise error
        end
  end.

(** [check_response(response)] *)
Definition check_response (response : pyval) : M pyval :=
  match response with
  | PDict items =>
      match dict_get "homeworks" items with
      | None =>
          let message := "Ключа homeworks нет в словаре." in
          logger_error message ;;
          raise (MkExn KeyError (PStr message))
      | Some homeworks =>
          if negb (is_list homeworks) then
            let message := "Домашние работы не являются списком!" in
            logger_error message ;;
            raise (MkExn TypeError (PStr message))
          else ret homeworks
      end
  | _ =>
      let message := "Ответ не является словарем!" in
      logger_error message ;;
      raise (MkExn TypeError (PStr message))
  end.

(** [obj.get(key)]: only a dict has the method. *)
Definition method_get (obj : pyval) (key : string) : M pyval :=
  match obj with
  | PDict items =>
      ret (match dict_get key items with Some v => v | None => PNone end)
  | _ =>
      raise (MkExn AttributeError
               (PStr ("'" ++ type_name obj ++ "' object has no attribute 'get'")))
  end.

(** [HOMEWORK_STATUSES[key]]: a key that cannot be hashed is a [TypeError],
    a key that is not in the table a [KeyError] of that key. *)
Definition statuses_getitem (key : pyval) : M string :=
  match key with
  | PList _ | PDict _ =>
      raise (MkExn TypeError (PStr ("unhashable type: '" ++ type_name key ++ "'")))
  | PStr s =>
      match assoc s HOMEWORK_STATUSES with
      | Some verdict => ret verdict
      | None => raise (MkExn KeyError key)
      end
  | _ => raise (MkExn KeyError key)
  end.

Definition is_none (v : pyval) : bool :=
  match v with PNone => true | _ => false end.

(** [parse_status(homework)] *)
Definition parse_status (homework : pyval) : M string :=
  homework_name <- method_get homework "homework_name" ;;
  homework_status <- method_get homework "status" ;;
  if is_none homework_status then
    let message := "Ключа homework_status нет в словаре." in
    logger_error message ;;
    raise (MkExn KeyError (PStr message))
  else if negb (is_dict homework) then
    let message := "Ответ не является словарем!" in
    logger_error message ;;
    raise (MkExn TypeError (PStr message))
  else
    verdict <-
      match statuses_getitem homework_status with
      | (tr, Raises e) =>
          if caught_by UnexpectedStatusError e then
            let message := "Неожиданный статус домашней работы" in
            (tr, Raises (MkExn UnexpectedStatusError (PStr message)))
          else (tr, Raises e)
      | done => done
      end ;;
    ret ("Изменился статус проверки работы " ++ dquote ++ py_str homework_name
         ++ dquote ++ ". " ++ verdict).

(** [check_tokens()] *)
Definition check_tokens : M bool :=
  if forallb truthy
       [of_env PRACTICUM_TOKEN; of_env TELEGRAM_TOKEN; of_env TELEGRAM_CHAT_ID]
  then ret true
  else
    logger_critical "Отсутствует обязательная переменная окружения" ;;
    ret false.

(** [obj[key]] with a string key; the texts of the errors are the
    interpreter's. *)
Definition getitem (obj : pyval) (key : string) : M pyval :=
  match obj with
  | PDict items =>
      match dict_get key items with
      | Some v => ret v
      | None => raise (MkExn KeyError (PStr key))
      end
  | PStr _ => raise (MkExn TypeError (PStr "string indices must be integers"))
  | PList _ =>
      raise (MkExn TypeError (PStr "list indices must be integers or slices, not str"))
  | _ =>
      raise (MkExn TypeError
               (PStr ("'" ++ type_name obj ++ "' object is not subscriptable")))
  end.

(** The variables of [main] that live across the iterations of its loop. *)
Record state : Type :=
  MkState { current_timestamp : Z; status : pyval; errors : bool }.

(** What the outside does during one iteration. *)
Record cycle_input : Type :=
  MkInput { api : result http_response; bot : bot_t }.

(** The [try] block of the loop; its value is [status] as the block leaves
    it. *)
Definition try_block (st : state) (w : cycle_input) : M pyval :=
  response <- get_api_answer (current_timestamp st) (api w) ;;
  parsed <- parse_status response ;;
  let homework := PStr parsed in
  changed <-
    (if truthy homework then
       new_status <- getitem homework "status" ;;
       ret (negb (py_eq (status st) new_status))
     else ret false) ;;
  status' <-
    (if changed : bool then
       message <- parse_status homework ;;
       send_message (bot w) message ;;
       getitem homework "status"
     else ret (status st)) ;;
  logger_info ("Изменений нет, " ++ str_int RETRY_TIME
               ++ " секунд, проверяем API") ;;
  ret status'.

(** How one iteration ends: the loop goes on, or an exception leaves
    [main]. *)
Inductive step_result : Type :=
| Continue (st : state)
| Propagate (e : exn).

(** One iteration of [while True]: the [try] block, then the [except
    Exception] handler or the [else] clause. *)
Definition cycle (st : state) (w : cycle_input) : list event * step_result :=
  match try_block st w with
  | (tr, Returns status') =>
      ((tr ++ [Sleep RETRY_TIME])%list,
       Continue (MkState (current_timestamp st) status' (errors st)))
  | (tr, Raises error) =>
      if caught_by Exception error then
        let message := "Сбой в работе программы: " ++ exc_str error in
        ((tr ++ (if negb (Bool.eqb (errors st) (errors st))
                 then [Log ERROR message] else []))%list,
         Continue st)
      else (tr, Propagate error)
  end.

(** How a run of [main] stands after the iterations observed. *)
Inductive main_end : Type :=
| Exited
| Looping (st : state)
| Crashed (e : exn).

(** The loop, over the inputs of its first iterations. *)
Fixpoint main_loop (ws : list cycle_input) (st : state) : list event * main_end :=
  match ws with
  | [] => ([], Looping st)
  | w :: ws' =>
      match cycle st w with
      | (tr, Continue st') =>
          let (tr', e) := main_loop ws' st' in ((tr ++ tr')%list, e)
      | (tr, Propagate error) => (tr, Crashed error)
      end
  end.

(** The variables of [main] when the loop is entered; [now] is
    [int(time.time())]. *)
Definition initial_state (now : Z) : state :=
  MkState now (PStr "reviewing") true.

(** [main()]; [new_bot] is what [telegram.Bot(token=TELEGRAM_TOKEN)] does and
    [now] is [int(time.time())].  [logging.critical] writes to the root
    logger, which the trace does not tell from [logger]. *)
Definition main (new_bot : result unit) (now : Z) (ws : list cycle_input)
  : list event * main_end :=
  match check_tokens with
  | (tr, Returns true) =>
      match new_bot with
      | Returns _ =>
          let (tr', e) := main_loop ws (initial_state now) in
          ((tr ++ tr')%list, e)
      | Raises error => (tr, Crashed error)
      end
  | (tr, _) =>
      ((tr ++ [Log CRITICAL ("Переменные окружения заданы "
                             ++ "некорректно или отсутсвуют")])%list,
       Exited)
  end.

End Homework.

(** ** Reading a trace *)

Definition is_log (ev : event) : bool :=
  match ev with Log _ _ => true | _ => false end.

(** A message reached the chat: a call of [bot.send_message] returned. *)
Definition delivered_in (tr : list event) : bool :=
  existsb (fun ev => match ev with TelegramSend _ _ d => d | _ => false end) tr.

(** The calls of [bot.send_message], delivered or not. *)
Definition notifications (tr : list event) : list string :=
  flat_map (fun ev => match ev with TelegramSend _ t _ => [t] | _ => [] end) tr.

(** The [from_date] of every request to the API, in order. *)
Definition fetch_dates (tr : list event) : list Z :=
  flat_map (fun ev => match ev with HttpGet _ _ t => [t] | _ => [] end) tr.

Definition sleeps (tr : list event) : list Z :=
  flat_map (fun ev => match ev with Sleep n => [n] | _ => [] end) tr.

(** The text of an exception built from one string, and whether it
    mentions [text]. *)
Definition carries (text : string) (e : exn) : bool :=
  match exc_arg e with PStr s => contains text s | _ => false end.

(** ** Sample inputs *)

(** An environment with the three tokens set, and printers that stand for
    the interpreter's. *)
Definition sample_getenv : string -> option string := fun name => Some name.
Definition sample_repr : pyval -> string := type_name.
Definition sample_exc_str : exn -> string :=
  fun e => match exc_arg e with PStr s => s | v => type_name v end.

Definition hw1_record : pyval :=
  PDict [("homework_name", PStr "hw1"); ("status", PStr "approved")].

(** [{"homeworks": [{"homework_name": "hw1", "status": "approved"}]}] *)
Definition hw1_envelope : pyval := PDict [("homeworks", PList [hw1_record])].

Definition bot_delivers : bot_t := fun _ _ => Returns tt.
Definition bot_times_out : bot_t :=
  fun _ _ => Raises (MkExn TimedOut (PStr "Timed out")).

Definition answers (code : Z) (body : pyval) : result http_response :=
  Returns (MkResponse code (Returns body)).

(** An iteration entered with [status = 'rejected'], in which the API answers
    with the envelope of [hw1] and the bot cannot deliver. *)
Definition sample_state : state := MkState 0 (PStr "rejected") true.
Definition sample_input : cycle_input :=
  MkInput (answers 200 hw1_envelope) bot_times_out.

(** More inputs: an environment with no variable set, a bot whose call fails
    outside the messaging library, a response whose body is not JSON, a
    request interrupted from the keyboard, and a record with keys the
    program does not read. *)
Definition empty_getenv : string -> option string := fun _ => None.
Definition bot_breaks : bot_t :=
  fun _ _ => Raises (MkExn ValueError (PStr "bad chat id")).
Definition not_json : http_response :=
  MkResponse 200 (Raises (MkExn JSONDecodeError (PStr "Expecting value"))).
Definition interrupted_input : cycle_input :=
  MkInput (Raises (MkExn KeyboardInterrupt PNone)) bot_delivers.
Definition hw1_record_long : list (string * pyval) :=
  [("id", PInt 7); ("status", PStr "approved");
   ("reviewer_comment", PStr ""); ("homework_name", PStr "hw1")].

(** * Properties *)

(** ** The exception hierarchy *)

Lemma lookup_errors_not_UnexpectedStatusError :
  forall c, In c [KeyError; TypeError; AttributeError] ->
            issubclass c UnexpectedStatusError = false.
Proof.
  intros c Hc; simpl in Hc.
  repeat (destruct Hc as [<- | Hc]; [reflexivity |]); contradiction.
Qed.

Lemma telegram_errors_are_TelegramError :
  forall c, In c [TelegramError; NetworkError; TimedOut; BadRequest; Unauthorized] ->
            issubclass c TelegramError = true.
Proof.
  intros c Hc; simpl in Hc.
  repeat (destruct Hc as [<- | Hc]; [reflexivity |]); contradiction.
Qed.

(** ** Strings *)

Lemma prefix_app (a b : string) : String.prefix a (a ++ b) = true.
Proof.
  induction a as [| c a IH]; simpl.
  - now destruct b.
  - destruct (ascii_dec c c) as [_ | N]; [exact IH | now elim N].
Qed.

Lemma contains_of_prefix (x hay : string) :
  String.prefix x hay = true -> contains x hay = true.
Proof. intros H. destruct hay; cbn [contains]; rewrite H; reflexivity. Qed.

Lemma contains_app (a x b : string) : contains x (a ++ x ++ b) = true.
Proof.
  induction a as [| c a IH].
  - change (contains x (x ++ b) = true).
    apply contains_of_prefix. apply prefix_app.
  - change (contains x (String c (a ++ x ++ b)) = true).
    cbn [contains]. rewrite IH. apply orb_true_r.
Qed.

Lemma contains_suffix (a x : string) : contains x (a ++ x) = true.
Proof.
  replace (a ++ x) with (a ++ x ++ "").
  - apply contains_app.
  - f_equal. induction x as [| c x IH]; simpl; [reflexivity | now rewrite IH].
Qed.

(** ** The monad *)

Lemma bind_returns {A B} (tr : list event) (a : A) (k : A -> M B) :
  bind (tr, Returns a) k = ((tr ++ fst (k a))%list, snd (k a)).
Proof. unfold bind. now destruct (k a). Qed.

Lemma bind_raises {A B} (tr : list event) (e : exn) (k : A -> M B) :
  bind (tr, Raises e) k = (tr, Raises e).
Proof. reflexivity. Qed.

(** ** What a call can log and how it can end *)

Section Shapes.

Variable getenv : string -> option string.
Variable py_repr : pyval -> string.
Variable exc_str : exn -> string.

(** A request is the first thing [get_api_answer] does and the only thing
    besides logging. *)
Lemma get_api_answer_shape (ts : Z) (net : result http_response) :
  exists logs r,
    get_api_answer getenv exc_str ts net
    = (HttpGet ENDPOINT (HEADERS getenv) ts :: logs, r)
    /\ forallb is_log logs = true.
Proof.
  unfold get_api_answer, logger_error, emit, raise, ret, bind.
  destruct net as [response | error].
  - destruct (negb (status_code response =? 200)); [simpl; eauto |].
    destruct (json response) as [body | error]; [simpl; eauto |].
    destruct (caught_by ValueError error); simpl; eauto.
  - destruct (caught_by ConnectTimeout error); [simpl; eauto |].
    destruct (caught_by RequestException error); simpl; eauto.
Qed.

(** [parse_status] only logs, and the sentence it returns is never the
    empty string. *)
Lemma parse_status_shape (homework : pyval) :
  exists logs r,
    parse_status py_repr homework = (logs, r)
    /\ forallb is_log logs = true
    /\ forall s, r = Returns s -> truthy (PStr s) = true.
Proof.
  destruct homework as [| b | n | f | s | items | items];
    try (eexists; eexists; split; [reflexivity | split; [reflexivity | discriminate]]).
  unfold parse_status, method_get, bind, ret; simpl.
  destruct (dict_get "status" items) as [st |]; simpl.
  2: { eexists; eexists; split; [reflexivity | split; [reflexivity | discriminate]]. }
  destruct (is_none st); simpl.
  { eexists; eexists; split; [reflexivity | split; [reflexivity | discriminate]]. }
  destruct (statuses_getitem st) as [tr [verdict | e]] eqn:E.
  - assert (tr = []) as ->.
    { unfold statuses_getitem, raise, ret in E.
      destruct st; try (now inversion E).
      destruct (assoc s HOMEWORK_STATUSES); now inversion E. }
    simpl. eexists; eexists; split; [reflexivity | split; [reflexivity |]].
    intros s [= <-]. reflexivity.
  - assert (tr = []) as ->.
    { unfold statuses_getitem, raise, ret in E.
      destruct st; try (now inversion E).
      destruct (assoc s HOMEWORK_STATUSES); now inversion E. }
    destruct (caught_by UnexpectedStatusError e); simpl;
      (eexists; eexists; split; [reflexivity | split; [reflexivity | discriminate]]).
Qed.

(** The [try] block of the loop never completes.  [parse_status] is given
    the envelope and returns a sentence; indexing that sentence with
    ['status'] is a [TypeError].  The block issues its request, logs, and
    raises. *)
Lemma try_block_shape (st : state) (w : cycle_input) :
  exists logs e,
    try_block getenv py_repr exc_str st w
    = (HttpGet ENDPOINT (HEADERS getenv) (current_timestamp st) :: logs, Raises e)
    /\ forallb is_log logs = true.
Proof.
  unfold try_block.
  destruct (get_api_answer_shape (current_timestamp st) (api w))
    as (logs & r & E & L).
  rewrite E. destruct r as [response | e].
  2: { rewrite bind_raises. eauto. }
  rewrite bind_returns.
  destruct (parse_status_shape response) as (logs' & r' & E' & L' & T).
  rewrite E'. destruct r' as [parsed | e].
  2: { rewrite bind_raises. cbn [fst snd].
       exists (logs ++ logs')%list, e. split; [reflexivity |].
       rewrite forallb_app, L, L'. reflexivity. }
  rewrite bind_returns, (T parsed eq_refl).
  cbn [getitem raise bind fst snd].
  exists (logs ++ logs' ++ [])%list. eexists. split; [reflexivity |].
  rewrite !forallb_app, L, L'. reflexivity.
Qed.

(** The guard [errors != errors] of the handler never holds. *)
Lemma errors_guard (b : bool) : negb (Bool.eqb b b) = false.
Proof. now destruct b. Qed.

(** An iteration issues its request, logs, and leaves the variables of
    [main] as they were; it ends the loop only on an exception that is not
    an [Exception]. *)
Lemma cycle_shape (st : state) (w : cycle_input) :
  exists logs,
    forallb is_log logs = true
    /\ let tr := HttpGet ENDPOINT (HEADERS getenv) (current_timestamp st) :: logs in
       cycle getenv py_repr exc_str st w = (tr, Continue st)
       \/ exists e, caught_by Exception e = false
                    /\ cycle getenv py_repr exc_str st w = (tr, Propagate e).
Proof.
  unfold cycle.
  destruct (try_block_shape st w) as (logs & e & E & L).
  rewrite E. exists logs. split; [exact L |].
  destruct (caught_by Exception e) eqn:C.
  - left. rewrite errors_guard, app_nil_r. reflexivity.
  - right. exists e. split; [exact C | reflexivity].
Qed.

(** A handled exception is followed by no log record and no sleep. *)
Lemma cycle_after_exception (st : state) (w : cycle_input) tr e :
  try_block getenv py_repr exc_str st w = (tr, Raises e) ->
  caught_by Exception e = true ->
  cycle getenv py_repr exc_str st w = (tr, Continue st).
Proof.
  intros E C. unfold cycle. rewrite E, C, errors_guard, app_nil_r. reflexivity.
Qed.

Lemma logs_no_notifications (logs : list event) :
  forallb is_log logs = true ->
  notifications logs = [] /\ delivered_in logs = false
  /\ fetch_dates logs = [] /\ sleeps logs = [].
Proof.
  induction logs as [| ev logs IH]; [now repeat split |].
  cbn [forallb]. intros [Hev Hl]%andb_prop.
  destruct ev; try discriminate. exact (IH Hl).
Qed.

End Shapes.

(** ** The response validator *)

(** C4.  [check_response] fails with the "not a dict" [TypeError] on an input
    that is not a dict; on a dict without the key [homeworks] it fails with
    the "no key" [KeyError]; on a dict whose [homeworks] is not a list it
    fails with the "not a list" [TypeError]; otherwise it returns the value
    under [homeworks] itself.  Each failure is logged once, as an error. *)
Theorem check_response_contract (response : pyval) :
  (is_dict response = false ->
   check_response response
   = ([Log ERROR "Ответ не является словарем!"],
      Raises (MkExn TypeError (PStr "Ответ не является словарем!"))))
  /\ (forall items, response = PDict items ->
       dict_get "homeworks" items = None ->
       check_response response
       = ([Log ERROR "Ключа homeworks нет в словаре."],
          Raises (MkExn KeyError (PStr "Ключа homeworks нет в словаре."))))
  /\ (forall items v, response = PDict items ->
       dict_get "homeworks" items = Some v -> is_list v = false ->
       check_response response
       = ([Log ERROR "Домашние работы не являются списком!"],
          Raises (MkExn TypeError (PStr "Домашние работы не являются списком!"))))
  /\ (forall items v, response = PDict items ->
       dict_get "homeworks" items = Some v -> is_list v = true ->
       check_response response = ([], Returns v)).
Proof.
  split; [| split; [| split]].
  - intros H. destruct response; try reflexivity. discriminate H.
  - intros items -> H. unfold check_response. rewrite H. reflexivity.
  - intros items v -> H L. unfold check_response. rewrite H, L. reflexivity.
  - intros items v -> H L. unfold check_response. rewrite H, L. reflexivity.
Qed.

Lemma check_response_contract_witness :
  check_response (PList [])
  = ([Log ERROR "Ответ не является словарем!"],
     Raises (MkExn TypeError (PStr "Ответ не является словарем!")))
  /\ check_response (PDict [("current_date", PInt 0)])
     = ([Log ERROR "Ключа homeworks нет в словаре."],
        Raises (MkExn KeyError (PStr "Ключа homeworks нет в словаре.")))
  /\ check_response (PDict [("homeworks", PStr "none")])
     = ([Log ERROR "Домашние работы не являются списком!"],
        Raises (MkExn TypeError (PStr "Домашние работы не являются списком!")))
  /\ check_response hw1_envelope = ([], Returns (PList [hw1_record])).
Proof.
  split; [| split; [| split]].
  - apply (proj1 (check_response_contract (PList []))). reflexivity.
  - apply (proj1 (proj2 (check_response_contract _)) [("current_date", PInt 0)]);
      reflexivity.
  - apply (proj1 (proj2 (proj2 (check_response_contract _)))
             [("homeworks", PStr "none")] (PStr "none")); reflexivity.
  - apply (proj2 (proj2 (proj2 (check_response_contract _)))
             [("homeworks", PList [hw1_record])] (PList [hw1_record]));
      reflexivity.
Defined.

(** ** The status translator *)

(** On anything that is not a dict, the first statement of [parse_status]
    already fails: the value has no method [get]. *)
Lemma parse_status_not_dict py_repr (homework : pyval) :
  is_dict homework = false ->
  parse_status py_repr homework
  = ([], Raises (MkExn AttributeError
                   (PStr ("'" ++ type_name homework
                          ++ "' object has no attribute 'get'")))).
Proof. destruct homework; intros H; try reflexivity. discriminate H. Qed.

(** C9.  [parse_status([])] raises [AttributeError]: the "not a dict"
    [TypeError] of the check that follows the status lookup is not what a
    list meets. *)
Theorem parse_status_of_list_raises_AttributeError py_repr :
  parse_status py_repr (PList [])
  = ([], Raises (MkExn AttributeError
                   (PStr "'list' object has no attribute 'get'"))).
Proof. apply parse_status_not_dict. reflexivity. Qed.

(** A status that is a string outside the table leaves [parse_status] as the
    [KeyError] of the table lookup. *)
Lemma unknown_status_is_KeyError py_repr items (s : string) :
  dict_get "status" items = Some (PStr s) ->
  assoc s HOMEWORK_STATUSES = None ->
  parse_status py_repr (PDict items) = ([], Raises (MkExn KeyError (PStr s))).
Proof.
  intros Hs Ha. unfold parse_status, method_get, statuses_getitem.
  cbn [bind ret fst snd app]. rewrite Hs. cbn [is_none is_dict negb].
  rewrite Ha. reflexivity.
Qed.

(** C3.  On the record [{"homework_name": "hw1", "status": "unknown"}],
    [parse_status] raises [KeyError('unknown')], which is not an
    [UnexpectedStatusError]; it logs nothing. *)
Theorem parse_status_unknown_status_raises_KeyError py_repr :
  parse_status py_repr
    (PDict [("homework_name", PStr "hw1"); ("status", PStr "unknown")])
  = ([], Raises (MkExn KeyError (PStr "unknown")))
  /\ issubclass KeyError UnexpectedStatusError = false.
Proof. split; reflexivity. Qed.

(** C10.  A dict with a status of the table and no key [homework_name] makes
    [parse_status] return the sentence with [None] for the name. *)
Theorem parse_status_without_name py_repr items (s verdict : string) :
  dict_get "homework_name" items = None ->
  dict_get "status" items = Some (PStr s) ->
  assoc s HOMEWORK_STATUSES = Some verdict ->
  parse_status py_repr (PDict items)
  = ([], Returns ("Изменился статус проверки работы " ++ dquote ++ "None"
                  ++ dquote ++ ". " ++ verdict)).
Proof.
  intros Hn Hs Ha. unfold parse_status, method_get, statuses_getitem.
  cbn [bind ret fst snd app]. rewrite Hn, Hs. cbn [is_none is_dict negb].
  rewrite Ha. reflexivity.
Qed.

Lemma parse_status_without_name_witness :
  parse_status sample_repr (PDict [("status", PStr "rejected")])
  = ([], Returns ("Изменился статус проверки работы " ++ dquote ++ "None"
                  ++ dquote ++ ". "
                  ++ "Работа проверена: у ревьюера есть замечания.")).
Proof.
  apply (parse_status_without_name sample_repr
           [("status", PStr "rejected")] "rejected"); reflexivity.
Defined.

(** ** The notifier *)

(** C5.  When the call of [bot.send_message] fails with a [TelegramError] (the
    class, with its subclasses, by which the messaging library reports a
    failed delivery), [send_message] logs one error and returns: nothing is
    raised to the caller. *)
Theorem send_message_swallows_delivery_failure getenv (bot : bot_t)
    (message : string) (e : exn) :
  bot (TELEGRAM_CHAT_ID getenv) message = Raises e ->
  caught_by TelegramError e = true ->
  send_message getenv bot message
  = ([TelegramSend (TELEGRAM_CHAT_ID getenv) message false;
      Log ERROR "Сообщение не отправлено"],
     Returns tt).
Proof.
  intros Hb Hc. unfold send_message. rewrite Hb.
  cbn [bind emit]. rewrite Hc. reflexivity.
Qed.

Lemma send_message_swallows_delivery_failure_witness :
  send_message sample_getenv bot_times_out "hello"
  = ([TelegramSend (Some "TELEGRAM_CHAT_ID") "hello" false;
      Log ERROR "Сообщение не отправлено"],
     Returns tt).
Proof.
  apply (send_message_swallows_delivery_failure sample_getenv bot_times_out
           "hello" (MkExn TimedOut (PStr "Timed out"))); reflexivity.
Defined.

(** ** The API client *)

(** C6, as amended.  On a response whose status code is not 200,
    [get_api_answer] returns no value: it logs one error that names the
    endpoint and the code, and raises [HTTPError] with the text
    ['Неверный код ответа сервера. <code>'], which carries the code. *)
Theorem get_api_answer_non_200 getenv exc_str (ts : Z)
    (response : http_response) :
  status_code response <> 200 ->
  let code := str_int (status_code response) in
  exists text e,
    get_api_answer getenv exc_str ts (Returns response)
    = ([HttpGet ENDPOINT (HEADERS getenv) ts; Log ERROR text], Raises e)
    /\ contains ENDPOINT text = true
    /\ contains code text = true
    /\ e = MkExn HTTPError (PStr ("Неверный код ответа сервера. " ++ code))
    /\ carries code e = true.
Proof.
  intros H code. apply Z.eqb_neq in H.
  unfold get_api_answer. rewrite H. cbn [negb].
  eexists. eexists. split; [reflexivity |].
  split; [| split; [| split; [reflexivity |]]].
  - apply (contains_app "Сбой в программе: Эндпоинт " ENDPOINT).
  - apply (contains_suffix
             ("Сбой в программе: Эндпоинт " ++ ENDPOINT ++ " недоступен."
              ++ "Недоступен. Код ответа API: ")).
  - apply (contains_suffix "Неверный код ответа сервера. ").
Qed.

Lemma get_api_answer_non_200_witness :
  exists text e,
    get_api_answer sample_getenv sample_exc_str 0 (answers 503 (PDict []))
    = ([HttpGet ENDPOINT "OAuth PRACTICUM_TOKEN" 0; Log ERROR text], Raises e)
    /\ contains ENDPOINT text = true
    /\ contains "503" text = true
    /\ e = MkExn HTTPError (PStr "Неверный код ответа сервера. 503")
    /\ carries "503" e = true.
Proof.
  apply (get_api_answer_non_200 sample_getenv sample_exc_str 0
           (MkResponse 503 (Returns (PDict [])))).
  simpl. lia.
Defined.

(** C6, as stated, fails: the error raised for a 503 response does not carry
    the endpoint. *)
Lemma http_error_lacks_endpoint :
  ~ (exists e,
       snd (get_api_answer sample_getenv sample_exc_str 0
              (answers 503 (PDict []))) = Raises e
       /\ exc_cls e = HTTPError
       /\ carries "503" e = true
       /\ carries ENDPOINT e = true).
Proof.
  intros (e & E & _ & _ & C).
  vm_compute in E. injection E as <-.
  vm_compute in C. discriminate C.
Qed.

(** ** The polling loop *)

(** No iteration calls the bot or sleeps: its events are one request and
    log records. *)
Lemma cycle_trace getenv py_repr exc_str (st : state) (w : cycle_input) :
  let tr := fst (cycle getenv py_repr exc_str st w) in
  fetch_dates tr = [current_timestamp st]
  /\ notifications tr = [] /\ delivered_in tr = false /\ sleeps tr = [].
Proof.
  destruct (cycle_shape getenv py_repr exc_str st w) as (logs & L & [E | (e & _ & E)]);
    rewrite E; cbn [fst];
    destruct (logs_no_notifications logs L) as (N & D & F & S);
    (split; [| split; [| split]]).
  all: try (unfold fetch_dates; cbn [flat_map app]; fold (fetch_dates logs);
            rewrite F; reflexivity).
  all: try (unfold notifications; cbn [flat_map app]; fold (notifications logs);
            exact N).
  all: try (unfold delivered_in; cbn [existsb orb]; exact D).
  all: unfold sleeps; cbn [flat_map app]; fold (sleeps logs); exact S.
Qed.

(** No iteration changes the variables of [main]. *)
Lemma cycle_keeps_state getenv py_repr exc_str (st st' : state)
    (w : cycle_input) (tr : list event) :
  cycle getenv py_repr exc_str st w = (tr, Continue st') -> st' = st.
Proof.
  intros H.
  destruct (cycle_shape getenv py_repr exc_str st w) as (logs & _ & [E | (e & _ & E)]);
    rewrite E in H; [now inversion H | discriminate H].
Qed.

(** C1.  From [status = 'reviewing'], the iteration that receives the envelope
    [{"homeworks": [{"homework_name": "hw1", "status": "approved"}]}] sends
    nothing and leaves [status] as it was: [parse_status] is applied to the
    envelope, which has no key [status], and its [KeyError] ends the [try]
    block. *)
Theorem hw1_scenario_sends_nothing getenv py_repr exc_str (now : Z) :
  cycle getenv py_repr exc_str (initial_state now)
    (MkInput (answers 200 hw1_envelope) bot_delivers)
  = ([HttpGet ENDPOINT (HEADERS getenv) now;
      Log ERROR "Ключа homework_status нет в словаре."],
     Continue (initial_state now)).
Proof. reflexivity. Qed.

(** C2.  The iteration that receives a 503 response handles the [HTTPError]
    without a log record of its own and without sleeping: its only log record
    is the one [get_api_answer] wrote, and the loop goes on at once. *)
Theorem http_503_neither_logged_nor_slept getenv py_repr exc_str (st : state)
    (bot : bot_t) (body : pyval) :
  cycle getenv py_repr exc_str st (MkInput (answers 503 body) bot)
  = (fst (get_api_answer getenv exc_str (current_timestamp st) (answers 503 body)),
     Continue st)
  /\ fst (get_api_answer getenv exc_str (current_timestamp st) (answers 503 body))
     = [HttpGet ENDPOINT (HEADERS getenv) (current_timestamp st);
        Log ERROR ("Сбой в программе: Эндпоинт " ++ ENDPOINT ++ " недоступен."
                   ++ "Недоступен. Код ответа API: 503")]
  /\ sleeps (fst (cycle getenv py_repr exc_str st (MkInput (answers 503 body) bot)))
     = [].
Proof.
  split; [| split].
  - unfold cycle, try_block. cbn. rewrite errors_guard. reflexivity.
  - reflexivity.
  - apply cycle_trace.
Qed.

(** C7.  [status] starts as ['reviewing'], and an iteration in which no
    message is delivered leaves it as it was. *)
Theorem status_kept_without_delivery getenv py_repr exc_str :
  (forall now, status (initial_state now) = PStr "reviewing")
  /\ (forall st w tr st',
        cycle getenv py_repr exc_str st w = (tr, Continue st') ->
        delivered_in tr = false ->
        status st' = status st).
Proof.
  split; [reflexivity |].
  intros st w tr st' H _.
  now rewrite (cycle_keeps_state getenv py_repr exc_str st st' w tr H).
Qed.

Lemma status_kept_without_delivery_witness :
  cycle sample_getenv sample_repr sample_exc_str sample_state sample_input
  = ([HttpGet ENDPOINT "OAuth PRACTICUM_TOKEN" 0;
      Log ERROR "Ключа homework_status нет в словаре."],
     Continue sample_state)
  /\ status (initial_state 0) = PStr "reviewing"
  /\ status sample_state = PStr "rejected".
Proof.
  split; [reflexivity |]. split.
  - apply (proj1 (status_kept_without_delivery
                    sample_getenv sample_repr sample_exc_str)).
  - apply (proj2 (status_kept_without_delivery
                    sample_getenv sample_repr sample_exc_str)
             sample_state sample_input
             [HttpGet ENDPOINT "OAuth PRACTICUM_TOKEN" 0;
              Log ERROR "Ключа homework_status нет в словаре."]
             sample_state);
      reflexivity.
Defined.

(** The requests of a run all carry the timestamp the loop was entered
    with, one request per iteration. *)
Lemma main_loop_fetch_dates getenv py_repr exc_str (ws : list cycle_input) :
  forall st,
    let run := main_loop getenv py_repr exc_str ws st in
    exists n, (n <= List.length ws)%nat
      /\ fetch_dates (fst run) = repeat (current_timestamp st) n
      /\ match snd run with
         | Looping st' => n = List.length ws /\ st' = st
         | _ => True
         end.
Proof.
  induction ws as [| w ws IH]; intros st run.
  - exists 0%nat. subst run. cbn. auto.
  - subst run. cbn [main_loop].
    pose proof (cycle_trace getenv py_repr exc_str st w) as (F & _).
    destruct (cycle getenv py_repr exc_str st w) as [tr [st' | e]] eqn:E.
    + apply cycle_keeps_state in E as ->. cbn [fst] in F.
      destruct (IH st) as (n & Hn & Hf & He).
      destruct (main_loop getenv py_repr exc_str ws st) as [tr' e'].
      cbn [fst snd] in *. exists (S n). split; [cbn [List.length]; lia |].
      split.
      * unfold fetch_dates in *. rewrite flat_map_app, F, Hf. reflexivity.
      * destruct e'; try exact I. destruct He as [-> ->]. now split.
    + cbn [fst snd] in *. exists 1%nat.
      split; [cbn [List.length]; lia |]. split; [exact F | exact I].
Qed.

(** C8.  [main] reads the clock once, before the loop; that timestamp is the
    [from_date] of every request of the run, one request per iteration, and
    the loop never changes it. *)
Theorem poll_cursor_never_advanced getenv py_repr exc_str
    (new_bot : result unit) (now : Z) (ws : list cycle_input) :
  let run := main getenv py_repr exc_str new_bot now ws in
  current_timestamp (initial_state now) = now
  /\ exists n, (n <= List.length ws)%nat
       /\ fetch_dates (fst run) = repeat now n
       /\ match snd run with
          | Looping st => n = List.length ws /\ current_timestamp st = now
          | _ => True
          end.
Proof.
  intros run. split; [reflexivity |].
  subst run. unfold main, check_tokens.
  destruct (forallb truthy _); [destruct new_bot as [[] | error] |].
  - destruct (main_loop_fetch_dates getenv py_repr exc_str ws (initial_state now))
      as (n & Hn & Hf & He).
    cbn [ret].
    destruct (main_loop getenv py_repr exc_str ws (initial_state now)) as [tr e].
    cbn [fst snd app] in *.
    exists n. split; [exact Hn |]. split; [exact Hf |].
    destruct e; try exact I. destruct He as [-> ->]. now split.
  - exists 0%nat. cbn. split; [lia |]. split; [reflexivity | exact I].
  - exists 0%nat. cbn. split; [lia |]. split; [reflexivity | exact I].
Qed.

(** * Further properties *)

(** ** Helpers *)

Lemma ConnectTimeout_is_RequestException (e : exn) :
  caught_by ConnectTimeout e = true -> caught_by RequestException e = true.
Proof. destruct e as [c a]. destruct c; cbn; intros H; (reflexivity || discriminate H). Qed.

(** The exceptions [parse_status] can raise. *)
Lemma parse_status_raise_classes py_repr (homework : pyval) tr (e : exn) :
  parse_status py_repr homework = (tr, Raises e) ->
  (exc_cls e = AttributeError /\ is_dict homework = false /\ tr = [])
  \/ (exc_cls e = KeyError /\ is_dict homework = true)
  \/ (exc_cls e = TypeError /\ tr = [] /\ is_dict homework = true
      /\ exists t, exc_arg e = PStr ("unhashable type: '" ++ t ++ "'")).
Proof.
  destruct homework as [| b | n | f | s | items | items];
    try (intros [= <- <-]; left; repeat split; reflexivity).
  unfold parse_status, method_get. cbn [bind ret fst snd app].
  destruct (dict_get "status" items) as [st |];
    [| intros [= <- <-]; right; left; split; reflexivity].
  destruct st as [| b | n | f | s | l | d]; cbn [is_none is_dict negb].
  1: intros [= <- <-]; right; left; split; reflexivity.
  1-3: unfold statuses_getitem, raise; cbn [bind caught_by exc_cls];
       intros [= <- <-]; right; left; split; reflexivity.
  - unfold statuses_getitem.
    destruct (assoc s HOMEWORK_STATUSES); cbn; [discriminate |].
    intros [= <- <-]. right; left; split; reflexivity.
  - unfold statuses_getitem, raise. cbn. intros [= <- <-].
    right; right. repeat split. now exists "list".
  - unfold statuses_getitem, raise. cbn. intros [= <- <-].
    right; right. repeat split. now exists "dict".
Qed.

Lemma parse_status_raises_Exception py_repr (homework : pyval) tr (e : exn) :
  parse_status py_repr homework = (tr, Raises e) ->
  caught_by Exception e = true.
Proof.
  intros H. apply parse_status_raise_classes in H.
  destruct e as [c a]. cbn [exc_cls] in H. unfold caught_by. cbn [exc_cls].
  destruct H as [(-> & _) | [(-> & _) | (-> & _)]]; reflexivity.
Qed.

(** ** Start-up *)

(** X1.  [check_tokens] returns [True], logging nothing, when the three
    variables are set to non-empty strings; when one of them is unset or is
    the empty string it logs one critical record and returns [False]. *)
Theorem check_tokens_cases getenv :
  (check_tokens getenv = ([], Returns true)
   /\ forall name,
        In name ["PRACTICUM_TOKEN"; "TELEGRAM_TOKEN"; "TELEGRAM_CHAT_ID"] ->
        exists s, getenv name = Some s /\ s <> "")
  \/ (check_tokens getenv
      = ([Log CRITICAL "Отсутствует обязательная переменная окружения"],
         Returns false)
      /\ exists name,
           In name ["PRACTICUM_TOKEN"; "TELEGRAM_TOKEN"; "TELEGRAM_CHAT_ID"]
           /\ (getenv name = None \/ getenv name = Some "")).
Proof.
  assert (T : forall o, truthy (of_env o) = true ->
                        exists s, o = Some s /\ s <> "").
  { intros [s |]; [| discriminate]. cbn. destruct s; [discriminate |].
    intros _. eexists; split; [reflexivity | discriminate]. }
  assert (F : forall o, truthy (of_env o) = false -> o = None \/ o = Some "").
  { intros [s |]; [| now left]. cbn. destruct s; [now right | discriminate]. }
  unfold check_tokens, PRACTICUM_TOKEN, TELEGRAM_TOKEN, TELEGRAM_CHAT_ID.
  cbn [forallb].
  destruct (truthy (of_env (getenv "PRACTICUM_TOKEN"))) eqn:E1;
    [| right; split; [reflexivity |];
       exists "PRACTICUM_TOKEN"; split; [cbn; auto | exact (F _ E1)]].
  destruct (truthy (of_env (getenv "TELEGRAM_TOKEN"))) eqn:E2;
    [| right; split; [reflexivity |];
       exists "TELEGRAM_TOKEN"; split; [cbn; auto | exact (F _ E2)]].
  destruct (truthy (of_env (getenv "TELEGRAM_CHAT_ID"))) eqn:E3;
    [| right; split; [reflexivity |];
       exists "TELEGRAM_CHAT_ID"; split; [cbn; auto | exact (F _ E3)]].
  left. split; [reflexivity |].
  intros name [<- | [<- | [<- | []]]]; auto.
Qed.

(** X2.  With one of the three variables unset or empty, [main] logs two
    critical records and exits: it makes no request, sends no message and
    never enters the loop, whatever the network would do. *)
Theorem main_exits_without_tokens getenv py_repr exc_str
    (new_bot : result unit) (now : Z) (ws : list cycle_input) (name : string) :
  In name ["PRACTICUM_TOKEN"; "TELEGRAM_TOKEN"; "TELEGRAM_CHAT_ID"] ->
  getenv name = None \/ getenv name = Some "" ->
  main getenv py_repr exc_str new_bot now ws
  = ([Log CRITICAL "Отсутствует обязательная переменная окружения";
      Log CRITICAL "Переменные окружения заданы некорректно или отсутсвуют"],
     Exited).
Proof.
  intros Hin Hmiss.
  assert (Hf : truthy (of_env (getenv name)) = false)
    by (destruct Hmiss as [-> | ->]; reflexivity).
  unfold main, check_tokens, PRACTICUM_TOKEN, TELEGRAM_TOKEN, TELEGRAM_CHAT_ID.
  cbn [forallb].
  destruct Hin as [<- | [<- | [<- | []]]]; rewrite Hf;
    rewrite ?andb_false_r; reflexivity.
Qed.

Lemma main_exits_without_tokens_witness :
  main empty_getenv sample_repr sample_exc_str (Returns tt) 0 [sample_input]
  = ([Log CRITICAL "Отсутствует обязательная переменная окружения";
      Log CRITICAL "Переменные окружения заданы некорректно или отсутсвуют"],
     Exited).
Proof.
  apply (main_exits_without_tokens empty_getenv sample_repr sample_exc_str
           (Returns tt) 0 [sample_input] "TELEGRAM_TOKEN").
  - simpl. auto.
  - left. reflexivity.
Defined.

(** ** The API client, further *)

(** X3.  Whatever the network does, [get_api_answer] makes exactly one
    request, to [ENDPOINT] with the OAuth header and [from_date] set to its
    argument, before anything else; the rest of what it does is logging. *)
Theorem get_api_answer_one_request getenv exc_str (ts : Z)
    (net : result http_response) :
  exists logs,
    fst (get_api_answer getenv exc_str ts net)
    = HttpGet ENDPOINT (HEADERS getenv) ts :: logs
    /\ forallb is_log logs = true
    /\ fetch_dates (fst (get_api_answer getenv exc_str ts net)) = [ts].
Proof.
  destruct (get_api_answer_shape getenv exc_str ts net) as (logs & r & E & L).
  exists logs. rewrite E. cbn [fst]. split; [reflexivity |]. split; [exact L |].
  destruct (logs_no_notifications logs L) as (_ & _ & F & _).
  unfold fetch_dates in *. cbn [flat_map app]. rewrite F. reflexivity.
Qed.

(** X4.  [get_api_answer] returns a value exactly when the response has
    status code 200 and its body decodes; the value is the decoded body. *)
Theorem get_api_answer_returns_iff getenv exc_str (ts : Z)
    (net : result http_response) (v : pyval) :
  snd (get_api_answer getenv exc_str ts net) = Returns v
  <-> exists response,
        net = Returns response
        /\ status_code response = 200
        /\ json response = Returns v.
Proof.
  unfold get_api_answer, logger_error, emit, raise, ret, bind. split.
  - destruct net as [response | error].
    + destruct (status_code response =? 200) eqn:C; cbn [negb];
        [| cbn; discriminate].
      apply Z.eqb_eq in C.
      destruct (json response) as [body | error] eqn:J.
      * cbn. intros [= ->]. exists response. auto.
      * destruct (caught_by ValueError error); cbn; discriminate.
    + destruct (caught_by ConnectTimeout error); [cbn; discriminate |].
      destruct (caught_by RequestException error); cbn; discriminate.
  - intros (response & -> & C & J).
    apply Z.eqb_eq in C. rewrite C, J. reflexivity.
Qed.

Lemma get_api_answer_returns_iff_witness :
  snd (get_api_answer sample_getenv sample_exc_str 0 (answers 200 hw1_envelope))
  = Returns hw1_envelope.
Proof.
  apply (proj2 (get_api_answer_returns_iff sample_getenv sample_exc_str 0
                  (answers 200 hw1_envelope) hw1_envelope)).
  exists (MkResponse 200 (Returns hw1_envelope)).
  split; [reflexivity |]. split; reflexivity.
Defined.

(** X5.  When [requests.get] raises, [get_api_answer] raises the same
    exception; it logs one error first when the exception is a
    [RequestException] and nothing otherwise. *)
Theorem get_api_answer_reraises getenv exc_str (ts : Z) (error : exn) :
  exists logs,
    get_api_answer getenv exc_str ts (Raises error)
    = (HttpGet ENDPOINT (HEADERS getenv) ts :: logs, Raises error)
    /\ logs = if caught_by RequestException error
              then [Log ERROR
                      ((if caught_by ConnectTimeout error
                        then "Превышено время ожидания ответа сервера "
                        else "Произошла ошибка соединения ")
                       ++ exc_str error)]
              else [].
Proof.
  unfold get_api_answer, logger_error, emit, raise, ret, bind.
  destruct (caught_by ConnectTimeout error) eqn:T.
  - rewrite (ConnectTimeout_is_RequestException error T).
    eexists. split; reflexivity.
  - destruct (caught_by RequestException error); eexists; split; reflexivity.
Qed.

(** X6.  When the body of a 200 response is not JSON ([.json()] raises a
    [ValueError]), [get_api_answer] logs that error and raises a new
    [ValueError] with the text ['Ответ не содержит валидный JSON']. *)
Theorem get_api_answer_invalid_json getenv exc_str (ts : Z)
    (response : http_response) (error : exn) :
  status_code response = 200 ->
  json response = Raises error ->
  caught_by ValueError error = true ->
  get_api_answer getenv exc_str ts (Returns response)
  = ([HttpGet ENDPOINT (HEADERS getenv) ts; Log ERROR (exc_str error)],
     Raises (MkExn ValueError (PStr "Ответ не содержит валидный JSON"))).
Proof.
  intros C J V. apply Z.eqb_eq in C.
  unfold get_api_answer. rewrite C, J, V. reflexivity.
Qed.

Lemma get_api_answer_invalid_json_witness :
  get_api_answer sample_getenv sample_exc_str 0 (Returns not_json)
  = ([HttpGet ENDPOINT "OAuth PRACTICUM_TOKEN" 0; Log ERROR "Expecting value"],
     Raises (MkExn ValueError (PStr "Ответ не содержит валидный JSON"))).
Proof.
  apply (get_api_answer_invalid_json sample_getenv sample_exc_str 0 not_json
           (MkExn JSONDecodeError (PStr "Expecting value"))); reflexivity.
Defined.

Lemma check_tokens_cases_witness :
  check_tokens sample_getenv = ([], Returns true).
Proof.
  destruct (check_tokens_cases sample_getenv)
    as [[H _] | [_ (name & Hin & Hmiss)]]; [exact H |].
  exfalso. destruct Hin as [<- | [<- | [<- | []]]];
    destruct Hmiss as [Hmiss | Hmiss]; discriminate Hmiss.
Defined.

(** ** The response validator, further *)

(** X7.  Whatever [check_response] returns is a list, the one stored under
    [homeworks] in the dict it was given, and nothing is logged then. *)
Theorem check_response_returns_list (response : pyval) tr (v : pyval) :
  check_response response = (tr, Returns v) ->
  tr = [] /\ is_list v = true
  /\ exists items, response = PDict items /\ dict_get "homeworks" items = Some v.
Proof.
  destruct response as [| b | n | f | s | l | items]; try discriminate.
  unfold check_response.
  destruct (dict_get "homeworks" items) as [hw |] eqn:G; [| discriminate].
  destruct (is_list hw) eqn:L; cbn [negb]; [| discriminate].
  intros [= <- <-]. split; [reflexivity |]. split; [exact L |].
  exists items. split; [reflexivity | exact G].
Qed.

Lemma check_response_returns_list_witness :
  @nil event = [] /\ is_list (PList [hw1_record]) = true
  /\ exists items,
       hw1_envelope = PDict items
       /\ dict_get "homeworks" items = Some (PList [hw1_record]).
Proof.
  apply (check_response_returns_list hw1_envelope [] (PList [hw1_record])).
  reflexivity.
Defined.

(** X8.  Every failure of [check_response] is a [TypeError] or a [KeyError]
    built from one message, and that message is logged once, as an error,
    before the exception is raised. *)
Theorem check_response_failure_logged (response : pyval) tr (e : exn) :
  check_response response = (tr, Raises e) ->
  exists message,
    tr = [Log ERROR message] /\ exc_arg e = PStr message
    /\ (exc_cls e = TypeError \/ exc_cls e = KeyError).
Proof.
  destruct response as [| b | n | f | s | l | items];
    try (intros [= <- <-]; eexists; split; [reflexivity |];
         split; [reflexivity | left; reflexivity]).
  unfold check_response.
  destruct (dict_get "homeworks" items) as [hw |].
  - destruct (is_list hw); cbn [negb]; [discriminate |].
    intros [= <- <-]. eexists; split; [reflexivity |].
    split; [reflexivity | left; reflexivity].
  - intros [= <- <-]. eexists; split; [reflexivity |].
    split; [reflexivity | right; reflexivity].
Qed.

Lemma check_response_failure_logged_witness :
  exists message,
    [Log ERROR "Ключа homeworks нет в словаре."] = [Log ERROR message]
    /\ exc_arg (MkExn KeyError (PStr "Ключа homeworks нет в словаре."))
       = PStr message
    /\ (exc_cls (MkExn KeyError (PStr "Ключа homeworks нет в словаре."))
        = TypeError
        \/ exc_cls (MkExn KeyError (PStr "Ключа homeworks нет в словаре."))
           = KeyError).
Proof.
  apply (check_response_failure_logged (PDict [("current_date", PInt 0)])).
  reflexivity.
Defined.

(** ** The status translator, further *)

(** X9.  A dict without the key [status], or with [status] set to [None],
    makes [parse_status] log and raise the "no key" [KeyError], whatever
    else the dict holds. *)
Theorem parse_status_missing_status py_repr items :
  dict_get "status" items = None \/ dict_get "status" items = Some PNone ->
  parse_status py_repr (PDict items)
  = ([Log ERROR "Ключа homework_status нет в словаре."],
     Raises (MkExn KeyError (PStr "Ключа homework_status нет в словаре."))).
Proof.
  intros H. unfold parse_status, method_get. cbn [bind ret fst snd app].
  destruct H as [-> | ->]; reflexivity.
Qed.

Lemma parse_status_missing_status_witness :
  parse_status sample_repr
    (PDict [("homework_name", PStr "hw1"); ("status", PNone)])
  = ([Log ERROR "Ключа homework_status нет в словаре."],
     Raises (MkExn KeyError (PStr "Ключа homework_status нет в словаре."))).
Proof.
  apply (parse_status_missing_status sample_repr
           [("homework_name", PStr "hw1"); ("status", PNone)]).
  right. reflexivity.
Defined.

(** X10.  On a dict whose [homework_name] is a string and whose [status] is
    a key of [HOMEWORK_STATUSES], [parse_status] logs nothing and returns the
    sentence made of the name, in double quotes, and the verdict of that
    status. *)
Theorem parse_status_known_status py_repr items (name s verdict : string) :
  dict_get "homework_name" items = Some (PStr name) ->
  dict_get "status" items = Some (PStr s) ->
  assoc s HOMEWORK_STATUSES = Some verdict ->
  parse_status py_repr (PDict items)
  = ([], Returns ("Изменился статус проверки работы " ++ dquote ++ name
                  ++ dquote ++ ". " ++ verdict)).
Proof.
  intros Hn Hs Ha. unfold parse_status, method_get, statuses_getitem.
  cbn [bind ret fst snd app]. rewrite Hn, Hs. cbn [is_none is_dict negb].
  rewrite Ha. reflexivity.
Qed.

Lemma parse_status_known_status_witness :
  parse_status sample_repr hw1_record
  = ([], Returns ("Изменился статус проверки работы " ++ dquote ++ "hw1"
                  ++ dquote ++ ". "
                  ++ "Работа проверена: ревьюеру всё понравилось. Ура!")).
Proof.
  apply (parse_status_known_status sample_repr
           [("homework_name", PStr "hw1"); ("status", PStr "approved")]
           "hw1" "approved"); reflexivity.
Defined.



(** X12.  [parse_status] reads the keys [homework_name] and [status] only:
    two dicts that agree on them give the same outcome. *)
Theorem parse_status_reads_two_keys py_repr items items' :
  dict_get "homework_name" items = dict_get "homework_name" items' ->
  dict_get "status" items = dict_get "status" items' ->
  parse_status py_repr (PDict items) = parse_status py_repr (PDict items').
Proof.
  intros Hn Hs. unfold parse_status, method_get. rewrite Hn, Hs. reflexivity.
Qed.

Lemma parse_status_reads_two_keys_witness :
  parse_status sample_repr (PDict hw1_record_long)
  = parse_status sample_repr hw1_record.
Proof.
  apply (parse_status_reads_two_keys sample_repr hw1_record_long
           [("homework_name", PStr "hw1"); ("status", PStr "approved")]);
    reflexivity.
Defined.

(** ** The notifier, further *)

(** X13.  [send_message] calls the bot exactly once, with the chat id of the
    environment and the message as given, whatever the outcome; it makes no
    second attempt, and the rest of what it does is logging. *)
Theorem send_message_one_attempt getenv (bot : bot_t) (message : string) :
  exists logs,
    fst (send_message getenv bot message)
    = TelegramSend (TELEGRAM_CHAT_ID getenv) message
        (match bot (TELEGRAM_CHAT_ID getenv) message with
         | Returns _ => true
         | Raises _ => false
         end) :: logs
    /\ forallb is_log logs = true
    /\ notifications (fst (send_message getenv bot message)) = [message].
Proof.
  unfold send_message, logger_info, logger_error, emit, raise, bind.
  destruct (bot (TELEGRAM_CHAT_ID getenv) message) as [[] | e].
  - eexists. cbn. split; [reflexivity |]. split; reflexivity.
  - destruct (caught_by TelegramError e); eexists; cbn;
      (split; [reflexivity |]; split; reflexivity).
Qed.

(** X14.  An exception of the bot that is not a [TelegramError] is not
    handled by [send_message]: it reaches the caller as it is, and nothing is
    logged. *)
Theorem send_message_propagates_other_errors getenv (bot : bot_t)
    (message : string) (e : exn) :
  bot (TELEGRAM_CHAT_ID getenv) message = Raises e ->
  caught_by TelegramError e = false ->
  send_message getenv bot message
  = ([TelegramSend (TELEGRAM_CHAT_ID getenv) message false], Raises e).
Proof.
  intros Hb Hc. unfold send_message. rewrite Hb.
  cbn [bind emit]. rewrite Hc. reflexivity.
Qed.

Lemma send_message_propagates_other_errors_witness :
  send_message sample_getenv bot_breaks "hello"
  = ([TelegramSend (Some "TELEGRAM_CHAT_ID") "hello" false],
     Raises (MkExn ValueError (PStr "bad chat id"))).
Proof.
  apply (send_message_propagates_other_errors sample_getenv bot_breaks
           "hello" (MkExn ValueError (PStr "bad chat id"))); reflexivity.
Defined.

(** ** The polling loop, further *)

Section Loop.

Variable getenv : string -> option string.
Variable py_repr : pyval -> string.
Variable exc_str : exn -> string.

(** Where the exception that ends the [try] block comes from. *)
Lemma try_block_raise_origin (st : state) (w : cycle_input) tr (e : exn) :
  try_block getenv py_repr exc_str st w = (tr, Raises e) ->
  caught_by Exception e = true
  \/ api w = Raises e
  \/ exists response,
       api w = Returns response /\ status_code response = 200
       /\ json response = Raises e.
Proof.
  unfold try_block, get_api_answer.
  destruct (api w) as [response | error].
  - destruct (status_code response =? 200) eqn:C; cbn [negb].
    2: { cbn. intros [= _ <-]. left. reflexivity. }
    apply Z.eqb_eq in C.
    destruct (json response) as [body | error] eqn:J.
    + cbn [emit ret bind app].
      destruct (parse_status_shape py_repr body) as (logs & r & E & _ & T).
      destruct r as [parsed | e'].
      * rewrite E. cbn [bind]. rewrite (T parsed eq_refl).
        cbn. intros [= _ <-]. left. reflexivity.
      * rewrite E. cbn [bind]. intros [= _ <-]. left.
        exact (parse_status_raises_Exception py_repr body logs e' E).
    + destruct (caught_by ValueError error) eqn:V.
      * cbn. intros [= _ <-]. left. reflexivity.
      * cbn. intros [= _ <-]. right; right. exists response. auto.
  - destruct (caught_by ConnectTimeout error);
      [| destruct (caught_by RequestException error)];
      cbn; intros [= _ <-]; right; left; reflexivity.
Qed.

Lemma main_loop_quiet (ws : list cycle_input) :
  forall st,
    let tr := fst (main_loop getenv py_repr exc_str ws st) in
    notifications tr = [] /\ delivered_in tr = false /\ sleeps tr = [].
Proof.
  induction ws as [| w ws IH]; intros st tr; subst tr.
  - cbn. auto.
  - cbn [main_loop].
    pose proof (cycle_trace getenv py_repr exc_str st w) as (_ & N & D & S).
    destruct (cycle getenv py_repr exc_str st w) as [tr [st' | e]].
    + specialize (IH st'). cbn [fst] in *.
      destruct (main_loop getenv py_repr exc_str ws st') as [tr' e'].
      cbn [fst] in *. destruct IH as (N' & D' & S').
      unfold notifications, delivered_in, sleeps in *.
      rewrite !flat_map_app, existsb_app, N, N', D, D', S, S'. auto.
    + cbn [fst] in *. auto.
Qed.

End Loop.

(** X15.  No run of [main] ever calls the bot or sleeps: through any number
    of iterations and whatever the API answers, its trace holds no message
    and no call of [time.sleep]. *)
Theorem main_never_notifies_nor_sleeps getenv py_repr exc_str
    (new_bot : result unit) (now : Z) (ws : list cycle_input) :
  notifications (fst (main getenv py_repr exc_str new_bot now ws)) = []
  /\ delivered_in (fst (main getenv py_repr exc_str new_bot now ws)) = false
  /\ sleeps (fst (main getenv py_repr exc_str new_bot now ws)) = [].
Proof.
  unfold main, check_tokens.
  destruct (forallb truthy _); [destruct new_bot as [[] | error] |].
  - pose proof (main_loop_quiet getenv py_repr exc_str ws (initial_state now)) as H.
    cbn [ret]. cbn zeta in H.
    destruct (main_loop getenv py_repr exc_str ws (initial_state now)) as [tr e].
    cbn [fst app] in *. exact H.
  - cbn. auto.
  - cbn. auto.
Qed.

(** X16.  While [main] is looping its variables are those it entered the
    loop with: [status] is still ['reviewing'], after any number of
    iterations. *)
Theorem main_state_never_changes getenv py_repr exc_str
    (new_bot : result unit) (now : Z) (ws : list cycle_input) :
  match snd (main getenv py_repr exc_str new_bot now ws) with
  | Looping st => st = initial_state now /\ status st = PStr "reviewing"
  | _ => True
  end.
Proof.
  unfold main, check_tokens.
  destruct (forallb truthy _); [destruct new_bot as [[] | error] |];
    try exact I.
  destruct (main_loop_fetch_dates getenv py_repr exc_str ws (initial_state now))
    as (n & _ & _ & He).
  cbn [ret].
  destruct (main_loop getenv py_repr exc_str ws (initial_state now)) as [tr e].
  cbn [fst snd app] in *.
  destruct e; try exact I. destruct He as [_ ->]. split; reflexivity.
Qed.

(** X17.  An iteration leaves the loop only with an exception that is not
    an [Exception], and that exception was raised by [requests.get] or by
    [.json()] on a 200 response: nothing the program raises itself ends the
    loop. *)
Theorem cycle_leaves_loop_only_on_foreign_exception getenv py_repr exc_str
    (st : state) (w : cycle_input) tr (e : exn) :
  cycle getenv py_repr exc_str st w = (tr, Propagate e) ->
  caught_by Exception e = false
  /\ (api w = Raises e
      \/ exists response,
           api w = Returns response /\ status_code response = 200
           /\ json response = Raises e).
Proof.
  unfold cycle.
  destruct (try_block getenv py_repr exc_str st w) as [tr' [s | e']] eqn:E;
    [discriminate |].
  destruct (caught_by Exception e') eqn:C; [discriminate |].
  intros [= _ <-]. split; [exact C |].
  destruct (try_block_raise_origin getenv py_repr exc_str st w tr' e' E)
    as [H | H]; [congruence | exact H].
Qed.

Lemma cycle_leaves_loop_only_on_foreign_exception_witness :
  caught_by Exception (MkExn KeyboardInterrupt PNone) = false
  /\ (api interrupted_input = Raises (MkExn KeyboardInterrupt PNone)
      \/ exists response,
           api interrupted_input = Returns response
           /\ status_code response = 200
           /\ json response = Raises (MkExn KeyboardInterrupt PNone)).
Proof.
  apply (cycle_leaves_loop_only_on_foreign_exception
           sample_getenv sample_repr sample_exc_str sample_state
           interrupted_input
           [HttpGet ENDPOINT "OAuth PRACTICUM_TOKEN" 0]).
  reflexivity.
Defined.

(** X18.  The events of an iteration are those of [get_api_answer] followed,
    when it returned, by those of [parse_status] on the envelope: the
    handler and the rest of the [try] block add none. *)
Theorem cycle_events_compose getenv py_repr exc_str (st : state)
    (w : cycle_input) :
  fst (cycle getenv py_repr exc_str st w)
  = (fst (get_api_answer getenv exc_str (current_timestamp st) (api w))
     ++ match snd (get_api_answer getenv exc_str (current_timestamp st) (api w)) with
        | Returns response => fst (parse_status py_repr response)
        | Raises _ => []
        end)%list.
Proof.
  unfold cycle, try_block.
  destruct (get_api_answer getenv exc_str (current_timestamp st) (api w))
    as [tr1 [response | e]].
  - cbn [fst snd]. rewrite bind_returns.
    destruct (parse_status_shape py_repr response) as (tr2 & r & E & _ & T).
    rewrite E. destruct r as [parsed | e].
    + rewrite bind_returns, (T parsed eq_refl).
      cbn [getitem raise bind fst snd caught_by exc_cls].
      change (issubclass TypeError Exception) with true. cbn iota.
      rewrite errors_guard. cbn [fst]. now rewrite !app_nil_r.
    + rewrite bind_raises. cbn [fst snd].
      rewrite (parse_status_raises_Exception py_repr response tr2 e E).
      rewrite errors_guard. cbn [fst]. now rewrite app_nil_r.
  - rewrite bind_raises. cbn [fst snd].
    destruct (caught_by Exception e); cbn [fst];
      [rewrite errors_guard |]; now rewrite ?app_nil_r.
Qed.
